(** * Compensation dashboard: filter, metrics, comparison and export

    A shallow embedding of [compensation_dashboard_poc.py].  The script is a
    Streamlit page: every interaction re-runs it from the top, with the
    widget values of that interaction and the session state left by the
    previous run.  The embedding follows the script block by block:

    - [Frame]: the part of pandas the script uses (columns, boolean masks,
      boolean indexing, [mean], [sum], [drop], [to_excel]) and Python's
      fixed-point formatting;
    - [Login]: the password gate (lines 10-28);
    - [Dashboard]: filters, metrics, download and year comparison
      (lines 51-279);
    - [Sidebar], [Insights]: the options of the multiselects, the chart
      data and the insights (lines 60-82 and 208-302);
    - [FilterSpec]: what a filter asks of a row, in the words of the page;
    - [Scenario]: a small workbook to run the page on.

    Numbers are modelled as the data frames hold them: [Base_Salary] is an
    integer column ([Z]), [Compa_Ratio] a binary64 column (Rocq's primitive
    [float], which has the IEEE comparisons and a NaN). *)

From Stdlib Require Import ZArith List String Ascii Bool Lia.
From Stdlib Require Import Floats Uint63.
From stdpp Require Import base list strings pretty.

#[local] Set Warnings "-inexact-float".
#[local] Open Scope string_scope.

(** ** The pandas fragment *)
Module Frame.

(** One row of an employee sheet.  The six attributes are the columns the
    script reads; [Select] is the cell of the check-box column and is read
    only when ["Select"] is one of the frame's column labels; [Extra] holds
    the cells of any further column, by label. *)
Inductive cell :=
  | CStr (s : string)
  | CInt (z : Z)
  | CFloat (f : float)
  | CBool (b : bool)
  | CBlank.

Record Row := mkRow {
  Department : string;
  Job_Level : string;
  Gender : string;
  Ethnicity : string;
  Base_Salary : Z;
  Compa_Ratio : float;
  Select : bool;
  Extra : list (string * cell)
}.

(** A data frame: its column labels, in the order of the sheet, and its
    rows, in the order of the sheet. *)
Record DataFrame := mkDF {
  columns : list string;
  rows : list Row
}.

(** [len(df)] *)
Definition len (df : DataFrame) : nat := length (rows df).

(** A column, read off a frame: [df["Department"]] is [col Department df]. *)
Definition Series (A : Type) := list A.

Definition col {A} (f : Row -> A) (df : DataFrame) : Series A :=
  List.map f (rows df).

(** [s.isin(values)] *)
Definition isin (s : Series string) (values : list string) : Series bool :=
  List.map (fun v => existsb (String.eqb v) values) s.

(** Element-wise comparisons of a column with a scalar. *)
Definition ge_int (s : Series Z) (k : Z) : Series bool :=
  List.map (fun v => (k <=? v)%Z) s.
Definition le_int (s : Series Z) (k : Z) : Series bool :=
  List.map (fun v => (v <=? k)%Z) s.
Definition ge_float (s : Series float) (k : float) : Series bool :=
  List.map (fun v => (k <=? v)%float) s.
Definition le_float (s : Series float) (k : float) : Series bool :=
  List.map (fun v => (v <=? k)%float) s.
Definition lt_float (s : Series float) (k : float) : Series bool :=
  List.map (fun v => (v <? k)%float) s.
Definition gt_float (s : Series float) (k : float) : Series bool :=
  List.map (fun v => (k <? v)%float) s.
Definition eq_bool (s : Series bool) (k : bool) : Series bool :=
  List.map (fun v => Bool.eqb v k) s.

(** [a & b] on two masks of the same frame. *)
Fixpoint mask_and (a b : Series bool) : Series bool :=
  match a, b with
  | x :: a', y :: b' => (x && y) :: mask_and a' b'
  | _, _ => []
  end.

(** Boolean indexing [df[mask]]: the rows whose mask entry is true, in the
    order of the frame; the column labels are kept. *)
Fixpoint keep {A} (l : list A) (mask : Series bool) : list A :=
  match l, mask with
  | x :: l', b :: mask' => if b then x :: keep l' mask' else keep l' mask'
  | _, _ => []
  end.

Definition loc (df : DataFrame) (mask : Series bool) : DataFrame :=
  {| columns := columns df; rows := keep (rows df) mask |}.

(** [df.drop(label, axis=1)]: the frame without the columns of that label. *)
Definition drop (label : string) (df : DataFrame) : DataFrame :=
  {| columns := List.filter (fun c => negb (String.eqb c label)) (columns df);
     rows := rows df |}.

(** [label in df.columns] *)
Definition has_column (label : string) (df : DataFrame) : bool :=
  existsb (String.eqb label) (columns df).

(** Python's truth value of a list: [if dept_filter:]. *)
Definition truthy {A} (l : list A) : bool :=
  match l with [] => false | _ :: _ => true end.

(** *** Reductions *)

(** Conversions to binary64 of a count and of an int64 cell. *)
Definition float_of_nat (n : nat) : float :=
  of_uint63 (Uint63.of_Z (Z.of_nat n)).

Definition float_of_int (z : Z) : float :=
  if (z <? 0)%Z then (- of_uint63 (Uint63.of_Z (- z)))%float
  else of_uint63 (Uint63.of_Z z).

Definition float_of_bool (b : bool) : float :=
  if b then 1%float else 0%float.

(** The sum of a column, accumulated from the first row on.  This is the
    order of the library on columns of fewer than eight cells; on longer
    columns it adds in blocks, and the last digits of a sum, hence of a
    printed mean, can differ from this model.  Sums of integer cells below
    2^53 are exact in either order. *)
Definition fsum (s : Series float) : float :=
  fold_left (fun acc v => (acc + v)%float) s 0%float.

(** [s.mean()] skips missing (NaN) cells and divides the sum of the others
    by their number; on no cell at all it is [0/0], a NaN. *)
Definition mean_float (s : Series float) : float :=
  let present := List.filter (fun v => negb (is_nan v)) s in
  (fsum present / float_of_nat (length present))%float.

Definition mean_int (s : Series Z) : float :=
  (fsum (List.map float_of_int s) / float_of_nat (length s))%float.

Definition mean_bool (s : Series bool) : float :=
  (fsum (List.map float_of_bool s) / float_of_nat (length s))%float.

(** [s.sum()] of a boolean column: the number of true cells. *)
Definition sum_bool (s : Series bool) : nat :=
  length (List.filter (fun b => b) s).

(** *** Writing a sheet *)

(** The cell of a row under a column label. *)
Definition cell_of (r : Row) (label : string) : cell :=
  if String.eqb label "Department" then CStr (Department r)
  else if String.eqb label "Job_Level" then CStr (Job_Level r)
  else if String.eqb label "Gender" then CStr (Gender r)
  else if String.eqb label "Ethnicity" then CStr (Ethnicity r)
  else if String.eqb label "Base_Salary" then CInt (Base_Salary r)
  else if String.eqb label "Compa_Ratio" then CFloat (Compa_Ratio r)
  else if String.eqb label "Select" then CBool (Select r)
  else match List.find (fun kv => String.eqb label (fst kv)) (Extra r) with
       | Some kv => snd kv
       | None => CBlank
       end.

Record Sheet := mkSheet {
  sheet_name : string;
  header : list string;
  body : list (list cell)
}.

(** [df.to_excel(writer, index=False, sheet_name=name)]: a header line with
    the column labels, then one line per row with the cells under those
    labels; no index column.  The model gives the shape of the sheet and
    the frame's cell behind each position; the file itself stores a
    binary64 cell as a decimal numeral, which is not spelled out here. *)
Definition to_sheet (name : string) (df : DataFrame) : Sheet :=
  {| sheet_name := name;
     header := columns df;
     body := List.map (fun r => List.map (cell_of r) (columns df)) (rows df) |}.

(** *** Python's fixed-point formatting, [f"{x:.2f}"] and [f"{x:,.0f}"] *)

Definition pow10 (n : nat) : Z := (10 ^ Z.of_nat n)%Z.

(** [n / d] rounded to the nearest integer, ties to even ([0 < d]). *)
Definition round_half_even (n d : Z) : Z :=
  let q := (n / d)%Z in
  match (2 * (n mod d) ?= d)%Z with
  | Lt => q
  | Gt => (q + 1)%Z
  | Eq => if Z.even q then q else (q + 1)%Z
  end.

(** Commas between groups of three digits, on the digits in reverse. *)
Fixpoint group3 (rev_digits : list ascii) : list ascii :=
  match rev_digits with
  | a :: b :: c :: ((_ :: _) as more) => a :: b :: c :: ","%char :: group3 more
  | _ => rev_digits
  end.

Definition with_commas (digits : string) : string :=
  string_of_list_ascii
    (List.rev (group3 (List.rev (list_ascii_of_string digits)))).

Fixpoint zeros (n : nat) : string :=
  match n with O => "" | S n' => "0" ++ zeros n' end.

(** The decimal digits of [q / 10^prec], [0 <= q], with [prec] decimals. *)
Definition fixed_digits (comma : bool) (prec : nat) (q : Z) : string :=
  let int_part := pretty (Z.to_N (q / pow10 prec)) in
  let frac := pretty (Z.to_N (q mod pow10 prec)) in
  (if comma then with_commas int_part else int_part)
  ++ match prec with
     | O => ""
     | S _ => "." ++ zeros (prec - String.length frac) ++ frac
     end.

Definition format_f (comma : bool) (prec : nat) (x : float) : string :=
  match Prim2SF x with
  | S754_nan => "nan"
  | S754_infinity s => if s then "-inf" else "inf"
  | S754_zero s => (if s then "-" else "") ++ fixed_digits comma prec 0
  | S754_finite s m e =>
      let n := (Z.pos m * pow10 prec)%Z in
      let q := if (0 <=? e)%Z then (n * 2 ^ e)%Z
               else round_half_even n (2 ^ (- e))%Z in
      (if s then "-" else "") ++ fixed_digits comma prec q
  end.

(** *** Distinct values, ordering, extremes and groups *)

(** [s == value] on a column of strings. *)
Definition eq_str (s : Series string) (value : string) : Series bool :=
  List.map (fun v => String.eqb v value) s.

(** [s.unique()]: the distinct values, in the order of first appearance. *)
Fixpoint unique (s : Series string) : list string :=
  match s with
  | [] => []
  | v :: s' =>
      v :: List.filter (fun x => negb (String.eqb x v)) (unique s')
  end.

(** Python's [sorted] on strings: ascending in the order of the code
    points, which is the order of the bytes of the strings.  The values
    sorted here are distinct, so the result does not depend on the sorting
    method; insertion is used. *)
Fixpoint insert_sorted (v : string) (l : list string) : list string :=
  match l with
  | [] => [v]
  | x :: l' => if String.leb v x then v :: l else x :: insert_sorted v l'
  end.

Definition sorted (l : list string) : list string :=
  fold_right insert_sorted [] l.

(** Ascending: each value is at most the next one. *)
Fixpoint ascending (l : list string) : Prop :=
  match l with
  | x :: ((y :: _) as l') => String.leb x y = true /\ ascending l'
  | _ => True
  end.

(** [s.min()] and [s.max()] of an integer column; on no row the library
    gives a NaN, on which the [int(...)] wrapped around it raises: [None]. *)
Definition min_int (s : Series Z) : option Z :=
  match s with
  | [] => None
  | v :: s' => Some (fold_left Z.min s' v)
  end.

Definition max_int (s : Series Z) : option Z :=
  match s with
  | [] => None
  | v :: s' => Some (fold_left Z.max s' v)
  end.

(** [s.min()] and [s.max()] of a binary64 column skip missing cells; with
    no cell left the result is a NaN.  (Of a zero and a negative zero,
    which compare equal, the first met is kept.) *)
Definition min_float (s : Series float) : float :=
  match List.filter (fun v => negb (is_nan v)) s with
  | [] => nan
  | v :: s' => fold_left (fun acc x => if (x <? acc)%float then x else acc) s' v
  end.

Definition max_float (s : Series float) : float :=
  match List.filter (fun v => negb (is_nan v)) s with
  | [] => nan
  | v :: s' => fold_left (fun acc x => if (acc <? x)%float then x else acc) s' v
  end.

(** [df.groupby(key)["Base_Salary"].mean()]: one entry per distinct key,
    keys ascending, with the mean salary of the rows of that key. *)
Definition groupby_mean_salary (key : Row -> string) (df : DataFrame)
  : list (string * float) :=
  List.map
    (fun k => (k, mean_int (col Base_Salary (loc df (eq_str (col key df) k)))))
    (sorted (unique (col key df))).

(** [s.idxmax()]: the label of the first largest entry, missing entries
    skipped; [None] when no entry is a number. *)
Definition idxmax (s : list (string * float)) : option (string * float) :=
  fold_left
    (fun best kv =>
       if is_nan (snd kv) then best
       else match best with
            | None => Some kv
            | Some b => if (snd b <? snd kv)%float then Some kv else best
            end)
    s None.

End Frame.

(** ** The password gate (lines 10-28) *)
Module Login.

(** [st.session_state]: the only key the script stores is ["authenticated"];
    a fresh session has no key at all. *)
Record SessionState := mkSession {
  authenticated : option bool
}.

Definition fresh : SessionState := {| authenticated := None |}.

(** What the login widgets return in one run of the script: the text of
    the password field and whether this run was triggered by the button. *)
Record LoginInput := mkLogin {
  password : string;
  login_clicked : bool
}.

(** How a run of the script leaves the gate. *)
Inductive Gate :=
  | Granted        (* authenticated set, [st.rerun()] *)
  | Incorrect      (* [st.error], then [st.stop()] *)
  | Stopped        (* login form shown, [st.stop()] *)
  | Passed.        (* the dashboard below the gate runs *)

Definition secret : string := "CompDemo2025".

(** The flag as the script reads it. *)
Definition flag (s : SessionState) : bool :=
  default false (authenticated s).

(** Lines 12-28, one run. *)
Definition gate (s : SessionState) (i : LoginInput) : SessionState * Gate :=
  let s :=
    match authenticated s with
    | None => {| authenticated := Some false |}
    | Some _ => s
    end in
  if negb (flag s) then
    if login_clicked i then
      if String.eqb (password i) secret
      then ({| authenticated := Some true |}, Granted)
      else (s, Incorrect)
    else (s, Stopped)
  else (s, Passed).

(** The session after a sequence of runs, oldest first. *)
Definition runs (s : SessionState) (trace : list LoginInput) : SessionState :=
  fold_left (fun s i => fst (gate s i)) trace s.

End Login.

(** ** The dashboard (lines 51-279) *)
Module Dashboard.
Import Frame.

Inductive Year := Y2024 | Y2025.

Definition year_str (year : Year) : string :=
  match year with Y2024 => "2024" | Y2025 => "2025" end.

(** [data]: the employee sheets of the workbook (the pay-band sheets are
    parsed but never read). *)
Record Data := mkData {
  Employees_2024 : DataFrame;
  Employees_2025 : DataFrame
}.

(** [data[f"Employees_{year}"]] *)
Definition employees (data : Data) (year : Year) : DataFrame :=
  match year with
  | Y2024 => Employees_2024 data
  | Y2025 => Employees_2025 data
  end.

(** The values of the sidebar's filter widgets. *)
Record Filters := mkFilters {
  dept_filter : list string;
  job_level_filter : list string;
  gender_filter : list string;
  ethnicity_filter : list string;
  min_salary : Z;
  max_salary : Z;
  min_compa : float;
  max_compa : float
}.

(** Lines 104-122. *)
Definition filtered_df (employee_df : DataFrame) (w : Filters) : DataFrame :=
  let filtered_df := employee_df in
  let filtered_df :=
    if truthy (dept_filter w)
    then loc filtered_df (isin (col Department filtered_df) (dept_filter w))
    else filtered_df in
  let filtered_df :=
    if truthy (job_level_filter w)
    then loc filtered_df (isin (col Job_Level filtered_df) (job_level_filter w))
    else filtered_df in
  let filtered_df :=
    if truthy (gender_filter w)
    then loc filtered_df (isin (col Gender filtered_df) (gender_filter w))
    else filtered_df in
  let filtered_df :=
    if truthy (ethnicity_filter w)
    then loc filtered_df (isin (col Ethnicity filtered_df) (ethnicity_filter w))
    else filtered_df in
  loc filtered_df
    (mask_and
       (mask_and
          (mask_and
             (ge_int (col Base_Salary filtered_df) (min_salary w))
             (le_int (col Base_Salary filtered_df) (max_salary w)))
          (ge_float (col Compa_Ratio filtered_df) (min_compa w)))
       (le_float (col Compa_Ratio filtered_df) (max_compa w))).

(** Lines 127-136: the four [st.metric] values. *)
Record Metrics := mkMetrics {
  total_employees : nat;
  average_compa_ratio : string;
  employees_below_midpoint : string;
  employees_above_max : string
}.

Definition metrics (filtered_df : DataFrame) : Metrics :=
  {| total_employees := len filtered_df;
     average_compa_ratio :=
       format_f false 2 (mean_float (col Compa_Ratio filtered_df));
     employees_below_midpoint :=
       format_f false 1
         (mean_bool (lt_float (col Compa_Ratio filtered_df) 1) * 100)%float
       ++ "%";
     employees_above_max :=
       pretty (sum_bool (gt_float (col Compa_Ratio filtered_df) 1.2)) |}.

(** Lines 144-187.  [edited_df] is what [st.data_editor] returned for the
    filtered frame in this run. *)
Definition selected_count (edited_df : DataFrame) : nat :=
  sum_bool (col Select edited_df).

Definition download_df (filtered_df edited_df : DataFrame) : DataFrame :=
  if (0 <? len filtered_df)%nat then
    if has_column "Select" edited_df then
      if (0 <? selected_count edited_df)%nat
      then drop "Select" (loc edited_df (eq_bool (col Select edited_df) true))
      else filtered_df
    else filtered_df
  else filtered_df.

(** What the page needs of [st.data_editor]: the frame it returns has the
    columns of the frame it was given, the check-box column apart. *)
Definition editor_columns (filtered_df edited_df : DataFrame) : Prop :=
  columns (drop "Select" edited_df) = columns (drop "Select" filtered_df).

(** Lines 190-195: the workbook written by [to_excel], as its sheets. *)
Definition to_excel (dataframe : DataFrame) : list Sheet :=
  [to_sheet "Filtered_Data" dataframe].

(** Lines 197-203: the download offered, if any. *)
Record Download := mkDownload {
  data : list Sheet;
  file_name : string;
  mime : string
}.

Definition download_button (year : Year) (filtered_df edited_df : DataFrame)
  : option Download :=
  if (0 <? len filtered_df)%nat then
    let download_df := download_df filtered_df edited_df in
    Some {| data := to_excel download_df;
            file_name := "Employee_Data_" ++ year_str year ++ "_"
                         ++ pretty (len download_df) ++ "_records.xlsx";
            mime := "application/vnd.openxmlformats-officedocument.spreadsheetml.sheet" |}
  else None.

(** Lines 242-279: the year comparison. *)
Definition other_year (year : Year) : Year :=
  match year with Y2024 => Y2025 | Y2025 => Y2024 end.

(** Lines 246-255. *)
Definition other_filtered (other_df : DataFrame) (w : Filters) : DataFrame :=
  let other_filtered := other_df in
  let other_filtered :=
    if truthy (dept_filter w)
    then loc other_filtered (isin (col Department other_filtered) (dept_filter w))
    else other_filtered in
  let other_filtered :=
    if truthy (job_level_filter w)
    then loc other_filtered (isin (col Job_Level other_filtered) (job_level_filter w))
    else other_filtered in
  let other_filtered :=
    if truthy (gender_filter w)
    then loc other_filtered (isin (col Gender other_filtered) (gender_filter w))
    else other_filtered in
  let other_filtered :=
    if truthy (ethnicity_filter w)
    then loc other_filtered (isin (col Ethnicity other_filtered) (ethnicity_filter w))
    else other_filtered in
  other_filtered.

(** The three deltas, before formatting. *)
Record Delta := mkDelta {
  compa_delta : float;
  salary_delta : float;
  count_delta : Z
}.

Definition deltas (filtered_df other_filtered : DataFrame) : Delta :=
  {| compa_delta :=
       (mean_float (col Compa_Ratio filtered_df)
        - mean_float (col Compa_Ratio other_filtered))%float;
     salary_delta :=
       (mean_int (col Base_Salary filtered_df)
        - mean_int (col Base_Salary other_filtered))%float;
     count_delta :=
       (Z.of_nat (len filtered_df) - Z.of_nat (len other_filtered))%Z |}.

(** The delta strings handed to [st.metric]. *)
Definition delta_strings (d : Delta) : string * string * string :=
  (format_f false 2 (compa_delta d),
   "$" ++ format_f true 0 (salary_delta d),
   pretty (count_delta d)).

(** The comparison of [year] with the other year: computed only when the
    filtered view has rows and the check box is ticked. *)
Definition compare (data : Data) (year : Year) (w : Filters) (enabled : bool)
  : option Delta :=
  let filtered_df := filtered_df (employees data year) w in
  if (0 <? len filtered_df)%nat then
    if enabled then
      let other_df := employees data (other_year year) in
      let other_filtered := other_filtered other_df w in
      Some (deltas filtered_df other_filtered)
    else None
  else None.

End Dashboard.

(** ** The sidebar's multiselects (lines 60-82) *)
Module Sidebar.
Import Frame Dashboard.

(** The options of a multiselect: [sorted(employee_df[field].unique())]. *)
Definition options (field : Row -> string) (employee_df : DataFrame)
  : list string :=
  sorted (unique (col field employee_df)).

End Sidebar.

(** ** Charts and insights (lines 208-302) *)
Module Insights.
Import Frame Dashboard.

(** Line 226: the bars of the salary chart. *)
Definition dept_avg (filtered_df : DataFrame) : list (string * float) :=
  groupby_mean_salary Department filtered_df.

(** Lines 290-292: the department written as the highest paid; [None] when
    there is no group, or no group mean is a number for [idxmax] to
    return. *)
Definition highest_dept (filtered_df : DataFrame) : option string :=
  if (0 <? length (groupby_mean_salary Department filtered_df))%nat
  then option_map fst (idxmax (groupby_mean_salary Department filtered_df))
  else None.

(** Lines 294-295. *)
Definition below_08 (filtered_df : DataFrame) : nat :=
  len (loc filtered_df (lt_float (col Compa_Ratio filtered_df) 0.8)).

Definition above_12 (filtered_df : DataFrame) : nat :=
  len (loc filtered_df (gt_float (col Compa_Ratio filtered_df) 1.2)).

(** Lines 299-302: one line per gender of the view, with its head count
    and its formatted average salary. *)
Definition by_gender (filtered_df : DataFrame) : list (string * nat * string) :=
  List.map
    (fun gender =>
       let sub := loc filtered_df (eq_str (col Gender filtered_df) gender) in
       (gender, len sub,
        "$" ++ format_f true 0 (mean_int (col Base_Salary sub))))
    (unique (col Gender filtered_df)).

Record Insights := mkInsights {
  highest_paid : option string;
  average_compa : string;
  below : nat;
  above : nat;
  genders : list (string * nat * string)
}.

(** Lines 285-302: written only for a view with rows. *)
Definition insights (filtered_df : DataFrame) : option Insights :=
  if (0 <? len filtered_df)%nat then
    Some {| highest_paid := highest_dept filtered_df;
            average_compa :=
              format_f false 2 (mean_float (col Compa_Ratio filtered_df));
            below := below_08 filtered_df;
            above := above_12 filtered_df;
            genders := by_gender filtered_df |}
  else None.

End Insights.

(** ** What the filter sidebar asks for

    The reading of a filter that the page documents: an empty selection
    constrains nothing, a non-empty one asks for membership, and the two
    sliders ask for closed intervals. *)
Module FilterSpec.
Import Frame Dashboard.

Definition selected (value : string) (selection : list string) : Prop :=
  selection = [] \/ In value selection.

Definition within_int (lo hi v : Z) : Prop := (lo <= v <= hi)%Z.

Definition within_float (lo hi v : float) : Prop :=
  (lo <=? v)%float = true /\ (v <=? hi)%float = true.

Definition satisfies (w : Filters) (r : Row) : Prop :=
  selected (Department r) (dept_filter w)
  /\ selected (Job_Level r) (job_level_filter w)
  /\ selected (Gender r) (gender_filter w)
  /\ selected (Ethnicity r) (ethnicity_filter w)
  /\ within_int (min_salary w) (max_salary w) (Base_Salary r)
  /\ within_float (min_compa w) (max_compa w) (Compa_Ratio r).

(** The same, as the masks compute it row by row. *)
Definition pick (value : string) (selection : list string) : bool :=
  negb (truthy selection) || existsb (String.eqb value) selection.

Definition categorical (w : Filters) (r : Row) : bool :=
  pick (Department r) (dept_filter w)
  && pick (Job_Level r) (job_level_filter w)
  && pick (Gender r) (gender_filter w)
  && pick (Ethnicity r) (ethnicity_filter w).

Definition in_ranges (w : Filters) (r : Row) : bool :=
  (min_salary w <=? Base_Salary r)%Z
  && (Base_Salary r <=? max_salary w)%Z
  && (min_compa w <=? Compa_Ratio r)%float
  && (Compa_Ratio r <=? max_compa w)%float.

Definition passes (w : Filters) (r : Row) : bool :=
  categorical w r && in_ranges w r.

End FilterSpec.

(** ** A small workbook

    Two employee sheets with the six columns of the record schema, and
    filter settings that the sidebar of either year can produce on them. *)
Module Scenario.
Import Frame Dashboard.

Definition schema : list string :=
  ["Department"; "Job_Level"; "Gender"; "Ethnicity"; "Base_Salary";
   "Compa_Ratio"].

Definition employee (dept gender : string) (salary : Z) (compa : float) : Row :=
  {| Department := dept; Job_Level := "L2"; Gender := gender;
     Ethnicity := "Group 1"; Base_Salary := salary; Compa_Ratio := compa;
     Select := false; Extra := [] |}.

Definition sheet_2024 : DataFrame :=
  {| columns := schema;
     rows := [employee "Sales" "F" 100000 0.9;
              employee "Sales" "M" 50000 0.7;
              employee "Legal" "F" 60000 1.1] |}.

Definition sheet_2025 : DataFrame :=
  {| columns := schema;
     rows := [employee "Sales" "F" 100000 0.9;
              employee "Legal" "F" 60000 1.1] |}.

Definition book : Data :=
  {| Employees_2024 := sheet_2024; Employees_2025 := sheet_2025 |}.

(** No categorical selection, salary slider at 60000..100000, compa-ratio
    slider at 0.9..1.1. *)
Definition from_60k : Filters :=
  {| dept_filter := []; job_level_filter := []; gender_filter := [];
     ethnicity_filter := [];
     min_salary := 60000; max_salary := 100000;
     min_compa := 0.9; max_compa := 1.1 |}.

(** Salary slider at 50000..50000, compa-ratio slider at 0.9..0.9: no row
    of [sheet_2024] is in both ranges. *)
Definition nobody : Filters :=
  {| dept_filter := []; job_level_filter := []; gender_filter := [];
     ethnicity_filter := [];
     min_salary := 50000; max_salary := 50000;
     min_compa := 0.9; max_compa := 0.9 |}.

(** A salary interval with its ends swapped. *)
Definition swapped : Filters :=
  {| dept_filter := ["Sales"]; job_level_filter := []; gender_filter := [];
     ethnicity_filter := [];
     min_salary := 100000; max_salary := 50000;
     min_compa := 0.9; max_compa := 1.1 |}.

(** A compa-ratio interval with its ends swapped. *)
Definition swapped_compa : Filters :=
  {| dept_filter := []; job_level_filter := []; gender_filter := [];
     ethnicity_filter := [];
     min_salary := 50000; max_salary := 100000;
     min_compa := 1.1; max_compa := 0.9 |}.

(** Department and gender selections. *)
Definition sales_women : Filters :=
  {| dept_filter := ["Sales"; "Legal"]; job_level_filter := [];
     gender_filter := ["F"]; ethnicity_filter := [];
     min_salary := 50000; max_salary := 100000;
     min_compa := 0.9; max_compa := 1.1 |}.

(** No selection, both sliders over the whole of the 2024 ranges. *)
Definition wide : Filters :=
  {| dept_filter := []; job_level_filter := []; gender_filter := [];
     ethnicity_filter := [];
     min_salary := 50000; max_salary := 100000;
     min_compa := 0.7; max_compa := 1.1 |}.

(** Every option of every multiselect of the 2024 sheet selected. *)
Definition everything : Filters :=
  {| dept_filter := ["Legal"; "Sales"]; job_level_filter := ["L2"];
     gender_filter := ["F"; "M"]; ethnicity_filter := ["Group 1"];
     min_salary := 60000; max_salary := 100000;
     min_compa := 0.7; max_compa := 1.1 |}.

(** The editor's frame for a view: the check-box column in front, and the
    rows of the view with the boxes ticked as [ticks] says. *)
Definition tick (r : Row) (b : bool) : Row :=
  {| Department := Department r; Job_Level := Job_Level r;
     Gender := Gender r; Ethnicity := Ethnicity r;
     Base_Salary := Base_Salary r; Compa_Ratio := Compa_Ratio r;
     Select := b; Extra := Extra r |}.

Fixpoint tick_rows (rs : list Row) (ticks : list bool) : list Row :=
  match rs, ticks with
  | r :: rs', b :: ticks' => tick r b :: tick_rows rs' ticks'
  | _, _ => rs
  end.

Definition edited (view : DataFrame) (ticks : list bool) : DataFrame :=
  {| columns := "Select" :: columns view;
     rows := tick_rows (rows view) ticks |}.



(** Three gate runs: a wrong password, the secret, a later visit. *)
Definition visits : list Login.LoginInput :=
  [Login.mkLogin "letmein" true;
   Login.mkLogin "CompDemo2025" true;
   Login.mkLogin "" false].

End Scenario.

Import Frame Login Dashboard Sidebar Insights FilterSpec Scenario.

(** * Boolean masks are filters *)
Section Masks.
Context {A : Type}.
Implicit Types (l : list A) (f g : A -> bool).

Lemma keep_map f l : keep l (List.map f l) = List.filter f l.
Proof.
  induction l as [|x l IH]; simpl; [reflexivity|].
  destruct (f x); simpl; now rewrite IH.
Qed.

Lemma mask_and_map f g l :
  mask_and (List.map f l) (List.map g l) = List.map (fun x => f x && g x) l.
Proof.
  induction l as [|x l IH]; simpl; [reflexivity|]. now rewrite IH.
Qed.

Lemma filter_filter f g l :
  List.filter g (List.filter f l) = List.filter (fun x => f x && g x) l.
Proof.
  induction l as [|x l IH]; simpl; [reflexivity|].
  destruct (f x) eqn:Hf; simpl; [|exact IH].
  destruct (g x); simpl; now rewrite IH.
Qed.

Lemma filter_ext_eq f g l :
  (forall x, f x = g x) -> List.filter f l = List.filter g l.
Proof.
  intros E. induction l as [|x l IH]; simpl; [reflexivity|].
  now rewrite E, IH.
Qed.

Lemma filter_all f l :
  (forall x, f x = true) -> List.filter f l = l.
Proof.
  intros E. induction l as [|x l IH]; simpl; [reflexivity|].
  now rewrite E, IH.
Qed.

Lemma filter_all_in f l :
  (forall x, In x l -> f x = true) -> List.filter f l = l.
Proof.
  induction l as [|x l IH]; simpl; intros E; [reflexivity|].
  rewrite (E x) by now left. f_equal. apply IH. intros y Hy. apply E. now right.
Qed.

Lemma filter_sublist f l : sublist (List.filter f l) l.
Proof.
  induction l as [|x l IH]; simpl; [constructor|].
  destruct (f x); now constructor.
Qed.

Lemma filter_Forall f l : Forall (fun x => f x = true) (List.filter f l).
Proof.
  induction l as [|x l IH]; simpl; [constructor|].
  destruct (f x) eqn:Hf; [constructor; assumption|assumption].
Qed.

End Masks.

Lemma keep_mask_length {A} (f : A -> bool) (l : list A) :
  length (keep l (List.map f l)) = sum_bool (List.map f l).
Proof.
  unfold sum_bool. rewrite keep_map.
  induction l as [|x l IH]; simpl; [reflexivity|].
  destruct (f x); simpl; now rewrite IH.
Qed.

(** Selecting by [isin] on a column of the frame itself, guarded by the
    truth value of the selection, filters the rows by [pick]. *)
Lemma loc_isin (field : Row -> string) (selection : list string) (df : DataFrame) :
  (if truthy selection
   then loc df (isin (col field df) selection)
   else df)
  = {| columns := columns df;
       rows := List.filter (fun r => pick (field r) selection) (rows df) |}.
Proof.
  unfold pick, loc, isin, col. destruct (truthy selection) eqn:T; simpl.
  - now rewrite List.map_map, keep_map.
  - rewrite filter_all by reflexivity. now destruct df.
Qed.

(** * The filter engine *)

Lemma other_filtered_eq (df : DataFrame) (w : Filters) :
  other_filtered df w
  = {| columns := columns df;
       rows := List.filter (categorical w) (rows df) |}.
Proof.
  unfold other_filtered. rewrite !loc_isin. simpl.
  rewrite !filter_filter. f_equal. apply filter_ext_eq. intros r.
  unfold categorical. now rewrite !andb_assoc.
Qed.

Lemma filtered_df_eq (df : DataFrame) (w : Filters) :
  filtered_df df w
  = {| columns := columns df;
       rows := List.filter (passes w) (rows df) |}.
Proof.
  unfold filtered_df. rewrite !loc_isin. simpl.
  unfold loc, ge_int, le_int, ge_float, le_float, col. simpl.
  rewrite !List.map_map, !mask_and_map, keep_map, !filter_filter.
  f_equal. apply filter_ext_eq. intros r.
  unfold passes, categorical, in_ranges.
  now rewrite !andb_assoc.
Qed.

Lemma pick_selected (value : string) (selection : list string) :
  pick value selection = true <-> selected value selection.
Proof.
  unfold pick, selected. destruct selection as [|s l].
  - simpl. intuition.
  - simpl truthy. simpl negb. rewrite orb_false_l, existsb_exists. split.
    + intros (x & Hin & Hx). apply String.eqb_eq in Hx. subst x. now right.
    + intros [H|H]; [discriminate|]. exists value. split; [assumption|].
      apply String.eqb_refl.
Qed.

Lemma passes_satisfies (w : Filters) (r : Row) :
  passes w r = true <-> satisfies w r.
Proof.
  unfold passes, categorical, in_ranges, satisfies, within_int, within_float.
  rewrite !andb_true_iff, !pick_selected, !Z.leb_le. tauto.
Qed.

(** The comparator's view of the other year is the categorical part of
    the filter alone; the page's own view adds the two ranges to it. *)
Lemma filtered_df_other_filtered (df : DataFrame) (w : Filters) :
  filtered_df df w
  = {| columns := columns df;
       rows := List.filter (in_ranges w) (rows (other_filtered df w)) |}.
Proof.
  rewrite filtered_df_eq, other_filtered_eq. simpl.
  now rewrite filter_filter.
Qed.

(** ** Order of binary64 values *)

Lemma SF_no_gap (lo hi v : spec_float) :
  SFltb hi lo = true -> SFleb lo v = true -> SFleb v hi = true -> False.
Proof.
  unfold SFltb, SFleb.
  destruct lo as [s1|s1| |s1 m1 e1], hi as [s2|s2| |s2 m2 e2],
           v as [s3|s3| |s3 m3 e3]; simpl;
    try discriminate;
    repeat match goal with s : bool |- _ => destruct s end;
    try discriminate.
  all: rewrite ?Pos.compare_cont_spec; simpl.
  all: repeat match goal with
       | |- context [Z.compare ?a ?b] =>
           destruct (Z.compare_spec a b); subst; simpl
       | |- context [Pos.compare ?a ?b] =>
           destruct (Pos.compare_spec a b); subst; simpl
       end; try discriminate; try lia.
Qed.

Lemma float_no_gap (lo hi v : float) :
  (hi <? lo)%float = true ->
  (lo <=? v)%float = true -> (v <=? hi)%float = true -> False.
Proof.
  rewrite FloatAxioms.ltb_spec, !FloatAxioms.leb_spec. apply SF_no_gap.
Qed.

Lemma in_ranges_inverted (w : Filters) (r : Row) :
  (max_salary w < min_salary w)%Z
  \/ (max_compa w <? min_compa w)%float = true ->
  in_ranges w r = false.
Proof.
  intros H. unfold in_ranges. apply not_true_is_false. intros E.
  rewrite !andb_true_iff, !Z.leb_le in E.
  destruct E as [[[H1 H2] H3] H4]. destruct H as [H|H]; [lia|].
  exact (float_no_gap _ _ _ H H3 H4).
Qed.

Lemma filter_none {A} (f : A -> bool) (l : list A) :
  (forall x, f x = false) -> List.filter f l = [].
Proof.
  intros E. induction l as [|x l IH]; simpl; [reflexivity|].
  now rewrite E.
Qed.

(** ** Claims on the filter engine *)

(** C3: the filtered view is a subsequence of the table, in the table's
    order, and each of its rows satisfies every constraint of the filter:
    membership in each non-empty selection, and both closed intervals. *)
Theorem filtered_view_is_ordered_selection (T : DataFrame) (P : Filters) :
  sublist (rows (filtered_df T P)) (rows T)
  /\ Forall (satisfies P) (rows (filtered_df T P)).
Proof.
  rewrite filtered_df_eq. simpl. split.
  - apply filter_sublist.
  - eapply Forall_impl; [apply filter_Forall|].
    intros r. apply passes_satisfies.
Qed.

(** C7: filtering a filtered view again with the same filter changes
    nothing. *)
Theorem filtered_df_idempotent (T : DataFrame) (P : Filters) :
  filtered_df (filtered_df T P) P = filtered_df T P.
Proof.
  rewrite !filtered_df_eq. simpl. f_equal.
  rewrite filter_filter. apply filter_ext_eq.
  intros r. apply andb_diag.
Qed.

(** C5: a filter whose salary interval or compa-ratio interval has its
    minimum above its maximum yields the view with no rows (and the
    columns of the table); the filter is a total function, so nothing is
    raised. *)
Theorem inverted_interval_gives_empty_view (T : DataFrame) (P : Filters) :
  (max_salary P < min_salary P)%Z
  \/ (max_compa P <? min_compa P)%float = true ->
  filtered_df T P = {| columns := columns T; rows := [] |}.
Proof.
  intros H. rewrite filtered_df_eq. f_equal.
  apply filter_none. intros r. unfold passes.
  rewrite (in_ranges_inverted P r H). apply andb_false_r.
Qed.

Lemma inverted_interval_witness :
  ((max_salary swapped < min_salary swapped)%Z
   \/ (max_compa swapped <? min_compa swapped)%float = true)
  /\ filtered_df sheet_2024 swapped = {| columns := schema; rows := [] |}.
Proof.
  split.
  - left. reflexivity.
  - apply (inverted_interval_gives_empty_view sheet_2024 swapped).
    left. reflexivity.
Defined.

Example inverted_compa_interval :
  filtered_df sheet_2024 swapped_compa = {| columns := schema; rows := [] |}.
Proof. vm_compute. reflexivity. Qed.

(** C1: with the salary slider at 60000..100000, the comparator's view of
    the 2024 sheet as the other year keeps the 50000 row, which the filter
    engine drops from the same sheet under the same filter. *)
Theorem other_year_view_keeps_rows_outside_ranges :
  let other_df := employees book (other_year Y2025) in
  rows (other_filtered other_df from_60k)
  = [employee "Sales" "F" 100000 0.9;
     employee "Sales" "M" 50000 0.7;
     employee "Legal" "F" 60000 1.1]
  /\ rows (filtered_df other_df from_60k)
     = [employee "Sales" "F" 100000 0.9;
        employee "Legal" "F" 60000 1.1]
  /\ other_filtered other_df from_60k <> filtered_df other_df from_60k.
Proof.
  cbv zeta. split; [|split].
  - vm_compute. reflexivity.
  - vm_compute. reflexivity.
  - intros E. apply (f_equal len) in E. vm_compute in E. discriminate.
Qed.

(** ** Claims on the metrics and the comparison *)

(** On a view with no rows both means are [0/0] and are shown as [nan]. *)
Lemma metrics_without_rows (df : DataFrame) :
  rows df = [] ->
  metrics df
  = {| total_employees := 0; average_compa_ratio := "nan";
       employees_below_midpoint := "nan%"; employees_above_max := "0" |}.
Proof.
  intros E. unfold metrics, len, col. rewrite E. vm_compute. reflexivity.
Qed.

(** C2: on [sheet_2024] with the sliders at 50000..50000 and 0.9..0.9 the
    view has no rows, and the metrics block shows [nan] for the average
    compa ratio and [nan%] for the share below midpoint. *)
Theorem metrics_of_empty_view_show_nan :
  rows (filtered_df sheet_2024 nobody) = []
  /\ metrics (filtered_df sheet_2024 nobody)
     = {| total_employees := 0; average_compa_ratio := "nan";
          employees_below_midpoint := "nan%"; employees_above_max := "0" |}.
Proof.
  split; vm_compute; reflexivity.
Qed.

(** C4: with the salary slider at 60000..100000 the deltas of 2024 against
    2025 are all zero, while those of 2025 against 2024 are not (compa
    ratio 0.10, salary 10000, count -1): the other year's view keeps the
    rows outside the ranges.  None of the three deltas is the negation of
    its counterpart. *)
Theorem deltas_of_swapped_years_differ :
  exists d d',
    compare book Y2024 from_60k true = Some d
    /\ compare book Y2025 from_60k true = Some d'
    /\ delta_strings d = ("0.00", "$0", "0")
    /\ delta_strings d' = ("0.10", "$10,000", "-1")
    /\ count_delta d <> (- count_delta d')%Z
    /\ salary_delta d <> (- salary_delta d')%float
    /\ compa_delta d <> (- compa_delta d')%float.
Proof.
  eexists. eexists.
  split; [vm_compute; reflexivity|].
  split; [vm_compute; reflexivity|].
  split; [vm_compute; reflexivity|].
  split; [vm_compute; reflexivity|].
  split; [vm_compute; discriminate|].
  split.
  - intros E. apply (f_equal (format_f false 0)) in E.
    vm_compute in E. discriminate.
  - intros E. apply (f_equal (format_f false 2)) in E.
    vm_compute in E. discriminate.
Qed.

(** ** Claims on the export *)

Lemma to_excel_shape (df : DataFrame) :
  exists sh,
    to_excel df = [sh]
    /\ sheet_name sh = "Filtered_Data"
    /\ header sh = columns df
    /\ body sh = List.map (fun r => List.map (cell_of r) (columns df)) (rows df)
    /\ length (body sh) = len df
    /\ Forall (fun line => length line = length (header sh)) (body sh).
Proof.
  eexists. split; [reflexivity|]. simpl.
  repeat split; try reflexivity.
  - apply List.length_map.
  - apply Forall_forall. intros line Hin.
    apply list_elem_of_In, in_map_iff in Hin.
    destruct Hin as (r & <- & _). apply List.length_map.
Qed.

Lemma has_column_In (label : string) (df : DataFrame) :
  has_column label df = true <-> In label (columns df).
Proof.
  unfold has_column. rewrite existsb_exists. split.
  - intros (c & Hin & E). apply String.eqb_eq in E. now subst.
  - intros Hin. exists label. split; [assumption|apply String.eqb_refl].
Qed.

Lemma drop_absent (label : string) (df : DataFrame) :
  has_column label df = false -> columns (drop label df) = columns df.
Proof.
  intros H. simpl. apply filter_all_in. intros c Hin.
  destruct (String.eqb_spec c label) as [->|]; [|reflexivity].
  apply has_column_In in Hin. congruence.
Qed.

Lemma drop_removes (label : string) (df : DataFrame) :
  ~ In label (columns (drop label df)).
Proof.
  simpl. intros Hin. apply filter_In in Hin. destruct Hin as [_ E].
  now rewrite String.eqb_refl in E.
Qed.

(** The rows handed to the export are the whole view or ticked rows of the
    editor's frame. *)
Lemma download_df_rows (filtered_df edited_df : DataFrame) :
  rows (download_df filtered_df edited_df) = rows filtered_df
  \/ rows (download_df filtered_df edited_df)
     = List.filter Select (rows edited_df).
Proof.
  unfold download_df.
  destruct (0 <? len filtered_df)%nat; [|now left].
  destruct (has_column "Select" edited_df); [|now left].
  destruct (0 <? selected_count edited_df)%nat; [|now left].
  right. simpl. unfold eq_bool, col. rewrite List.map_map, keep_map.
  apply filter_ext_eq. intros r. now destruct (Select r).
Qed.





(** For an employee table that has no ["Select"] column of its own, the
    workbook written from the rows to download (the whole view, or the
    ticked rows of the editor's frame) has one sheet, one line per row
    with one cell per column, the view's columns in their order as header,
    and no ["Select"] column. *)
Lemma export_follows_schema (filtered_df edited_df : DataFrame) :
  has_column "Select" filtered_df = false ->
  editor_columns filtered_df edited_df ->
  exists sh,
    to_excel (download_df filtered_df edited_df) = [sh]
    /\ length (body sh) = len (download_df filtered_df edited_df)
    /\ Forall (fun line => length line = length (header sh)) (body sh)
    /\ header sh = columns filtered_df
    /\ ~ In "Select" (header sh).
Proof.
  intros Hschema Hedit.
  destruct (to_excel_shape (download_df filtered_df edited_df))
    as (sh & E & _ & Hh & _ & Hn & Hw).
  exists sh. repeat split; try assumption.
  - rewrite Hh. unfold download_df.
    destruct (0 <? len filtered_df)%nat; [|reflexivity].
    destruct (has_column "Select" edited_df); [|reflexivity].
    destruct (0 <? selected_count edited_df)%nat; [|reflexivity].
    unfold editor_columns in Hedit.
    rewrite (drop_absent "Select" filtered_df) in Hedit by assumption.
    exact Hedit.
  - rewrite Hh. unfold download_df.
    assert (Hno : ~ In "Select" (columns filtered_df)).
    { intros Hin. apply has_column_In in Hin. congruence. }
    destruct (0 <? len filtered_df)%nat; [|assumption].
    destruct (has_column "Select" edited_df); [|assumption].
    destruct (0 <? selected_count edited_df)%nat; [|assumption].
    apply (drop_removes "Select").
Qed.


(** The page offers no download at all for a view with no rows. *)
Lemma no_download_for_empty_view
  (year : Year) (filtered_df edited_df : DataFrame) :
  len filtered_df = 0%nat ->
  download_button year filtered_df edited_df = None.
Proof.
  intros H. unfold download_button. now rewrite H.
Qed.



(** ** Claims on the password gate *)

(** One run raises the flag only on a click with the secret. *)
Lemma gate_raises_flag (s : SessionState) (i : LoginInput) :
  flag (fst (gate s i)) = true ->
  flag s = true \/ (login_clicked i = true /\ password i = secret).
Proof.
  unfold gate, flag.
  destruct s as [[[|]|]]; simpl; [now left| |];
    destruct (login_clicked i); simpl; try discriminate;
    destruct (String.eqb_spec (password i) secret); simpl;
    try discriminate; intros _; right; now split.
Qed.

Lemma runs_app (s : SessionState) (pre post : list LoginInput) :
  runs s (pre ++ post)%list = runs (runs s pre) post.
Proof. apply fold_left_app. Qed.

Lemma runs_raise_flag (trace : list LoginInput) (s : SessionState) :
  flag s = false ->
  flag (runs s trace) = true ->
  exists pre i post,
    trace = (pre ++ i :: post)%list
    /\ flag (runs s pre) = false
    /\ login_clicked i = true /\ password i = secret.
Proof.
  induction trace as [|i trace IH] using rev_ind; intros Hs Hf.
  - simpl in Hf. congruence.
  - rewrite runs_app in Hf. simpl in Hf.
    destruct (flag (runs s trace)) eqn:Hmid.
    + destruct (IH Hs eq_refl) as (pre & j & post & -> & Hpre & Hj).
      exists pre, j, (post ++ [i])%list. split; [|now split].
      now rewrite <- app_assoc.
    + apply gate_raises_flag in Hf. destruct Hf as [Hf|Hf]; [congruence|].
      exists trace, i, []. now repeat split.
Qed.

(** C9: the flag is false in a fresh session, and after any sequence of
    runs it is true only if one of them was a login click whose password
    was the secret, the flag being false until that run. *)
Theorem flag_true_only_after_secret (trace : list LoginInput) :
  flag fresh = false
  /\ (flag (runs fresh trace) = true ->
      exists pre i post,
        trace = (pre ++ i :: post)%list
        /\ flag (runs fresh pre) = false
        /\ login_clicked i = true /\ password i = "CompDemo2025").
Proof.
  split; [reflexivity|]. apply runs_raise_flag. reflexivity.
Qed.

Lemma flag_true_only_after_secret_witness :
  flag (runs fresh visits) = true
  /\ exists pre i post,
       visits = (pre ++ i :: post)%list
       /\ flag (runs fresh pre) = false
       /\ login_clicked i = true /\ password i = "CompDemo2025".
Proof.
  split; [reflexivity|].
  apply (proj2 (flag_true_only_after_secret visits)). reflexivity.
Defined.

(** * Further properties of the page *)

(** ** The gate over a session *)

Lemma gate_keeps_authenticated (s : SessionState) (i : LoginInput) :
  flag s = true -> gate s i = (s, Passed).
Proof.
  unfold gate, flag. destruct s as [[[|]|]]; simpl; try discriminate.
  reflexivity.
Qed.

Lemma gate_grants_on_secret (s : SessionState) (i : LoginInput) :
  login_clicked i = true -> password i = secret ->
  flag (fst (gate s i)) = true.
Proof.
  intros Hc Hp. unfold gate, flag.
  destruct s as [[[|]|]]; simpl; try reflexivity;
    rewrite Hc, Hp, String.eqb_refl; reflexivity.
Qed.

Lemma runs_keep_authenticated (s : SessionState) (trace : list LoginInput) :
  flag s = true -> runs s trace = s.
Proof.
  intros Hs. induction trace as [|i trace IH]; [reflexivity|].
  unfold runs in *. simpl. now rewrite gate_keeps_authenticated.
Qed.

Lemma gate_passed_flag (s : SessionState) (i : LoginInput) :
  snd (gate s i) = Passed -> flag s = true.
Proof.
  unfold gate, flag.
  destruct s as [[[|]|]]; simpl; try reflexivity;
    destruct (login_clicked i); try discriminate;
    destruct (String.eqb (password i) secret); discriminate.
Qed.

Lemma secret_run_sets_flag (trace : list LoginInput) (i : LoginInput) :
  In i trace -> login_clicked i = true -> password i = secret ->
  flag (runs fresh trace) = true.
Proof.
  intros Hin Hc Hp. apply in_split in Hin. destruct Hin as (pre & post & ->).
  rewrite runs_app. change (runs (runs fresh pre) (i :: post))
    with (runs (fst (gate (runs fresh pre) i)) post).
  assert (Hg : flag (fst (gate (runs fresh pre) i)) = true)
    by now apply gate_grants_on_secret.
  now rewrite (runs_keep_authenticated _ post Hg).
Qed.

Lemma flag_needs_secret_run (trace : list LoginInput) :
  flag (runs fresh trace) = true ->
  exists i, In i trace /\ login_clicked i = true /\ password i = secret.
Proof.
  intros H. destruct (runs_raise_flag trace fresh eq_refl H)
    as (pre & i & post & -> & _ & Hc & Hp).
  exists i. split; [|now split]. apply in_or_app. right. now left.
Qed.

(** X1: once the flag is set, no later run changes the session: there is
    no way to log out, and every later run reaches the dashboard. *)
Theorem authenticated_session_is_final
  (s : SessionState) (trace : list LoginInput) :
  flag s = true ->
  runs s trace = s
  /\ Forall (fun i => snd (gate s i) = Passed) trace.
Proof.
  intros Hs. split.
  - now apply runs_keep_authenticated.
  - apply Forall_forall. intros i _. now rewrite gate_keeps_authenticated.
Qed.

Lemma authenticated_session_is_final_witness :
  let s := runs fresh visits in
  flag s = true
  /\ runs s visits = s
  /\ Forall (fun i => snd (gate s i) = Passed) visits.
Proof.
  cbv zeta. split; [reflexivity|].
  apply (authenticated_session_is_final (runs fresh visits) visits).
  reflexivity.
Defined.

(** X2: after any sequence of runs of a fresh session the flag is set
    exactly when one of the runs was a click on Login with the secret in
    the password field. *)
Theorem flag_set_iff_secret_was_entered (trace : list LoginInput) :
  flag (runs fresh trace) = true
  <-> exists i, In i trace /\ login_clicked i = true /\ password i = secret.
Proof.
  split.
  - apply flag_needs_secret_run.
  - intros (i & Hin & Hc & Hp). now apply (secret_run_sets_flag trace i).
Qed.

(** X3: a run reaches the dashboard only if a run strictly before it was a
    click on Login with the secret; the run in which the secret is entered
    does not reach it. *)
Theorem dashboard_only_after_earlier_login
  (pre : list LoginInput) (i : LoginInput) :
  snd (gate (runs fresh pre) i) = Passed ->
  exists j, In j pre /\ login_clicked j = true /\ password j = secret.
Proof.
  intros H. apply flag_needs_secret_run. now apply (gate_passed_flag _ i).
Qed.

Lemma dashboard_only_after_earlier_login_witness :
  snd (gate (runs fresh [mkLogin "CompDemo2025" true]) (mkLogin "" false))
  = Passed
  /\ exists j, In j [mkLogin "CompDemo2025" true]
               /\ login_clicked j = true /\ password j = secret.
Proof.
  split; [reflexivity|].
  apply (dashboard_only_after_earlier_login
           [mkLogin "CompDemo2025" true] (mkLogin "" false)).
  reflexivity.
Defined.

(** ** The view, exactly *)

(** X4: a row is in the filtered view exactly when it is a row of the
    table that satisfies every constraint of the filter; the view has the
    table's columns. *)
Theorem filtered_view_has_exactly_the_matching_rows
  (T : DataFrame) (P : Filters) (r : Row) :
  (In r (rows (filtered_df T P)) <-> In r (rows T) /\ satisfies P r)
  /\ columns (filtered_df T P) = columns T.
Proof.
  rewrite filtered_df_eq. simpl. split; [|reflexivity].
  rewrite filter_In, passes_satisfies. reflexivity.
Qed.

(** ** The comparison when the sliders exclude nothing *)

Lemma in_ranges_within (w : Filters) (r : Row) :
  in_ranges w r = true
  <-> within_int (min_salary w) (max_salary w) (Base_Salary r)
      /\ within_float (min_compa w) (max_compa w) (Compa_Ratio r).
Proof.
  unfold in_ranges, within_int, within_float.
  rewrite !andb_true_iff, !Z.leb_le. tauto.
Qed.

Lemma views_agree_within_ranges (df : DataFrame) (w : Filters) :
  Forall (fun r => within_int (min_salary w) (max_salary w) (Base_Salary r)
                   /\ within_float (min_compa w) (max_compa w) (Compa_Ratio r))
         (rows df) ->
  filtered_df df w = other_filtered df w.
Proof.
  intros H. rewrite filtered_df_eq, other_filtered_eq. f_equal.
  apply filter_ext_in. intros r Hr. unfold passes.
  rewrite Forall_forall in H. apply list_elem_of_In in Hr.
  rewrite (proj2 (in_ranges_within w r) (H r Hr)). apply andb_true_r.
Qed.

Lemma within_ranges_forallb (w : Filters) (l : list Row) :
  forallb (in_ranges w) l = true ->
  Forall (fun r => within_int (min_salary w) (max_salary w) (Base_Salary r)
                   /\ within_float (min_compa w) (max_compa w) (Compa_Ratio r))
         l.
Proof.
  rewrite forallb_forall, Forall_forall. intros H r Hr.
  apply in_ranges_within, H. now apply list_elem_of_In.
Qed.

(** X5: when every row of both sheets lies within the two slider ranges,
    the record-count delta of one year against the other is the negation
    of the delta the other way round. *)
Theorem count_delta_antisymmetric_within_ranges
  (data : Data) (year : Year) (P : Filters) (d d' : Delta) :
  Forall (fun r => within_int (min_salary P) (max_salary P) (Base_Salary r)
                   /\ within_float (min_compa P) (max_compa P) (Compa_Ratio r))
         (rows (Employees_2024 data) ++ rows (Employees_2025 data))%list ->
  compare data year P true = Some d ->
  compare data (other_year year) P true = Some d' ->
  count_delta d = (- count_delta d')%Z.
Proof.
  intros H. apply Forall_app in H. destruct H as [H24 H25].
  assert (E : forall y, filtered_df (employees data y) P
                        = other_filtered (employees data y) P).
  { intros [|]; now apply views_agree_within_ranges. }
  unfold compare. rewrite !E.
  destruct (0 <? len (other_filtered (employees data year) P))%nat;
    [|discriminate].
  destruct (0 <? len (other_filtered (employees data (other_year year)) P))%nat;
    [|discriminate].
  intros [= <-] [= <-]. simpl.
  replace (other_year (other_year year)) with year by now destruct year.
  lia.
Qed.

Lemma count_delta_antisymmetric_witness :
  exists d d',
    compare book Y2025 wide true = Some d
    /\ compare book Y2024 wide true = Some d'
    /\ count_delta d = (-1)%Z
    /\ count_delta d = (- count_delta d')%Z.
Proof.
  eexists. eexists. split; [reflexivity|]. split; [reflexivity|].
  split; [reflexivity|].
  apply (count_delta_antisymmetric_within_ranges book Y2025 wide).
  - apply within_ranges_forallb. reflexivity.
  - reflexivity.
  - reflexivity.
Defined.

(** ** What is downloaded *)

(** X6: a download is offered exactly when the view has a row; its
    workbook has a single sheet, and the count in its file name is the
    number of data lines of that sheet. *)
Theorem download_name_counts_the_lines
  (year : Year) (filtered_df edited_df : DataFrame) :
  (download_button year filtered_df edited_df <> None
   <-> (0 < len filtered_df)%nat)
  /\ forall d,
       download_button year filtered_df edited_df = Some d ->
       exists sh,
         data d = [sh]
         /\ file_name d
            = "Employee_Data_" ++ year_str year ++ "_"
              ++ pretty (length (body sh)) ++ "_records.xlsx".
Proof.
  unfold download_button. split.
  - destruct (0 <? len filtered_df)%nat eqn:E.
    + apply Nat.ltb_lt in E. split; [intros _; exact E|discriminate].
    + apply Nat.ltb_ge in E. split; [congruence|lia].
  - intros d. destruct (0 <? len filtered_df)%nat; [|discriminate].
    intros [= <-]. eexists. split; [reflexivity|]. simpl.
    now rewrite List.length_map.
Qed.

Lemma download_name_witness :
  let view := filtered_df sheet_2024 from_60k in
  exists d sh,
    download_button Y2024 view view = Some d
    /\ data d = [sh]
    /\ file_name d = "Employee_Data_2024_2_records.xlsx"
    /\ length (body sh) = 2%nat.
Proof.
  cbv zeta.
  destruct (proj2 (download_name_counts_the_lines Y2024
                     (filtered_df sheet_2024 from_60k)
                     (filtered_df sheet_2024 from_60k)) _ eq_refl)
    as (sh & Hd & Hn).
  eexists. exists sh. split; [reflexivity|]. split; [exact Hd|].
  split; [reflexivity|]. injection Hd as <-. reflexivity.
Defined.

(** X7: when the editor's frame has the check-box column and at least one
    box is ticked, the rows downloaded are the ticked rows of the editor's
    frame, in its order, and there are as many as the page announces. *)
Theorem selection_downloads_ticked_rows (filtered_df edited_df : DataFrame) :
  (0 < len filtered_df)%nat ->
  has_column "Select" edited_df = true ->
  (0 < selected_count edited_df)%nat ->
  rows (download_df filtered_df edited_df) = List.filter Select (rows edited_df)
  /\ len (download_df filtered_df edited_df) = selected_count edited_df
  /\ sublist (rows (download_df filtered_df edited_df)) (rows edited_df)
  /\ Forall (fun r => Select r = true) (rows (download_df filtered_df edited_df)).
Proof.
  intros Hv Hc Hs. unfold download_df.
  apply Nat.ltb_lt in Hv, Hs. rewrite Hv, Hc, Hs. simpl.
  unfold eq_bool, col. rewrite List.map_map, keep_map.
  assert (E : List.filter (fun r => Bool.eqb (Select r) true) (rows edited_df)
              = List.filter Select (rows edited_df)).
  { apply filter_ext_eq. intros r. now destruct (Select r). }
  rewrite E. split; [reflexivity|]. split; [|split].
  - unfold len, selected_count, sum_bool, col. simpl. rewrite ?E.
    clear. induction (rows edited_df) as [|r l IH]; simpl; [reflexivity|].
    destruct (Select r); simpl; now rewrite IH.
  - apply filter_sublist.
  - apply filter_Forall.
Qed.

Lemma selection_downloads_witness :
  let view := filtered_df sheet_2024 from_60k in
  let frame := edited view [false; true] in
  rows (download_df view frame) = List.filter Select (rows frame)
  /\ len (download_df view frame) = selected_count frame
  /\ sublist (rows (download_df view frame)) (rows frame)
  /\ Forall (fun r => Select r = true) (rows (download_df view frame)).
Proof.
  cbv zeta.
  apply (selection_downloads_ticked_rows
           (filtered_df sheet_2024 from_60k)
           (edited (filtered_df sheet_2024 from_60k) [false; true])).
  - vm_compute. constructor. constructor.
  - reflexivity.
  - vm_compute. constructor.
Defined.

(** ** More on the order of binary64 values *)

Ltac sf_order :=
  unfold SFltb, SFleb, SFeqb;
  repeat match goal with
         | x : spec_float |- _ => destruct x as [[]|[]| |[] ? ?]
         end;
  simpl; try discriminate; try congruence;
  rewrite ?Pos.compare_cont_spec; simpl;
  repeat match goal with
         | |- context [Z.compare ?a ?b] =>
             destruct (Z.compare_spec a b); subst; simpl
         | |- context [Pos.compare ?a ?b] =>
             destruct (Pos.compare_spec a b); subst; simpl
         end;
  try discriminate; try congruence; try lia.

Lemma SFleb_refl (x : spec_float) : x <> S754_nan -> SFleb x x = true.
Proof. sf_order. Qed.

Lemma SFltb_leb_trans (a b c : spec_float) :
  SFltb a b = true -> SFleb b c = true -> SFleb a c = true.
Proof. sf_order. Qed.

Lemma SFleb_ltb_trans (a b c : spec_float) :
  SFleb a b = true -> SFltb b c = true -> SFleb a c = true.
Proof. sf_order. Qed.

Lemma SFleb_trans (a b c : spec_float) :
  SFleb a b = true -> SFleb b c = true -> SFleb a c = true.
Proof. sf_order. Qed.

Lemma SFltb_trans (a b c : spec_float) :
  SFltb a b = true -> SFltb b c = true -> SFltb a c = true.
Proof. sf_order. Qed.

Lemma SFleb_ltb_lt (a b c : spec_float) :
  SFleb a b = true -> SFltb b c = true -> SFltb a c = true.
Proof. sf_order. Qed.

Lemma SFltb_total (a b : spec_float) :
  a <> S754_nan -> b <> S754_nan -> SFltb a b = false -> SFleb b a = true.
Proof. sf_order. Qed.

Lemma SFltb_cycle (a b v : spec_float) :
  SFltb a b = true -> SFltb v a = true -> SFltb b v = true -> False.
Proof. sf_order. Qed.

Lemma SFleb_not_nan (a b : spec_float) :
  SFleb a b = true -> a <> S754_nan /\ b <> S754_nan.
Proof. sf_order; split; discriminate. Qed.

Lemma SFltb_not_nan (a b : spec_float) :
  SFltb a b = true -> a <> S754_nan /\ b <> S754_nan.
Proof. sf_order; split; discriminate. Qed.

Lemma SFeqb_self (x : spec_float) : SFeqb x x = true <-> x <> S754_nan.
Proof. split; sf_order. Qed.

(** The same facts on [float], where "is a number" is [is_nan x = false]. *)
Lemma is_number_SF (x : float) :
  is_nan x = false <-> Prim2SF x <> S754_nan.
Proof.
  unfold is_nan. rewrite negb_false_iff, FloatAxioms.eqb_spec.
  apply SFeqb_self.
Qed.

Lemma float_leb_refl (x : float) : is_nan x = false -> (x <=? x)%float = true.
Proof.
  rewrite is_number_SF, FloatAxioms.leb_spec. apply SFleb_refl.
Qed.

Lemma float_leb_numbers (a b : float) :
  (a <=? b)%float = true -> is_nan a = false /\ is_nan b = false.
Proof.
  rewrite !is_number_SF, FloatAxioms.leb_spec. apply SFleb_not_nan.
Qed.

Lemma float_ltb_numbers (a b : float) :
  (a <? b)%float = true -> is_nan a = false /\ is_nan b = false.
Proof.
  rewrite !is_number_SF, FloatAxioms.ltb_spec. apply SFltb_not_nan.
Qed.

Lemma float_ltb_leb_trans (a b c : float) :
  (a <? b)%float = true -> (b <=? c)%float = true -> (a <=? c)%float = true.
Proof.
  rewrite FloatAxioms.ltb_spec, !FloatAxioms.leb_spec. apply SFltb_leb_trans.
Qed.

Lemma float_leb_ltb_trans (a b c : float) :
  (a <=? b)%float = true -> (b <? c)%float = true -> (a <=? c)%float = true.
Proof.
  rewrite FloatAxioms.ltb_spec, !FloatAxioms.leb_spec. apply SFleb_ltb_trans.
Qed.

Lemma float_leb_trans (a b c : float) :
  (a <=? b)%float = true -> (b <=? c)%float = true -> (a <=? c)%float = true.
Proof.
  rewrite !FloatAxioms.leb_spec. apply SFleb_trans.
Qed.

Lemma float_ltb_trans (a b c : float) :
  (a <? b)%float = true -> (b <? c)%float = true -> (a <? c)%float = true.
Proof.
  rewrite !FloatAxioms.ltb_spec. apply SFltb_trans.
Qed.

Lemma float_leb_ltb_lt (a b c : float) :
  (a <=? b)%float = true -> (b <? c)%float = true -> (a <? c)%float = true.
Proof.
  rewrite !FloatAxioms.ltb_spec, FloatAxioms.leb_spec. apply SFleb_ltb_lt.
Qed.

Lemma float_ltb_total (a b : float) :
  is_nan a = false -> is_nan b = false ->
  (a <? b)%float = false -> (b <=? a)%float = true.
Proof.
  rewrite !is_number_SF, FloatAxioms.ltb_spec, FloatAxioms.leb_spec.
  apply SFltb_total.
Qed.

Lemma float_ltb_cycle (a b v : float) :
  (a <? b)%float = true -> (v <? a)%float = true -> (b <? v)%float = true ->
  False.
Proof.
  rewrite !FloatAxioms.ltb_spec. apply SFltb_cycle.
Qed.

(** ** Metrics and insights on one view *)

Lemma filter_disjoint_length {A} (f g : A -> bool) (l : list A) :
  (forall x, f x = true -> g x = true -> False) ->
  (length (List.filter f l) + length (List.filter g l) <= length l)%nat.
Proof.
  intros D. induction l as [|x l IH]; simpl; [lia|].
  destruct (f x) eqn:Hf, (g x) eqn:Hg; simpl; try lia.
  destruct (D x Hf Hg).
Qed.

(** X8: the insights are written exactly for a view with rows, and then
    they agree with the metrics above them: the same average compa ratio,
    and the count above 1.2 is the "Employees Above Max" figure. *)
Theorem insights_agree_with_metrics (filtered_df : DataFrame) :
  (insights filtered_df <> None <-> (0 < len filtered_df)%nat)
  /\ forall ins,
       insights filtered_df = Some ins ->
       average_compa ins = average_compa_ratio (metrics filtered_df)
       /\ pretty (above ins) = employees_above_max (metrics filtered_df).
Proof.
  unfold insights. split.
  - destruct (0 <? len filtered_df)%nat eqn:E.
    + apply Nat.ltb_lt in E. split; [intros _; exact E|discriminate].
    + apply Nat.ltb_ge in E. split; [congruence|lia].
  - intros ins. destruct (0 <? len filtered_df)%nat; [|discriminate].
    intros [= <-]. simpl. split; [reflexivity|].
    unfold above_12, len, loc, gt_float, col. simpl.
    now rewrite List.map_map, keep_mask_length.
Qed.

Lemma insights_agree_witness :
  exists ins,
    insights sheet_2024 = Some ins
    /\ average_compa ins = average_compa_ratio (metrics sheet_2024)
    /\ pretty (above ins) = employees_above_max (metrics sheet_2024).
Proof.
  eexists. split; [reflexivity|].
  apply (proj2 (insights_agree_with_metrics sheet_2024)). reflexivity.
Defined.

(** X9: no row is counted both below 0.8 and above 1.2, so the two counts
    of the insights together never exceed the number of rows of the view. *)
Theorem low_and_high_counts_are_disjoint (filtered_df : DataFrame) :
  (below_08 filtered_df + above_12 filtered_df <= len filtered_df)%nat.
Proof.
  unfold below_08, above_12, len, loc, lt_float, gt_float, col. simpl.
  rewrite !List.map_map, !keep_map.
  apply filter_disjoint_length. intros r Hlow Hhigh.
  apply (float_ltb_cycle 0.8 1.2 (Compa_Ratio r)); [reflexivity| |]; assumption.
Qed.

(** ** Distinct values and their order *)

Lemma unique_In (s : list string) (x : string) : In x (unique s) <-> In x s.
Proof.
  induction s as [|v s IH]; simpl; [reflexivity|].
  rewrite filter_In, IH, negb_true_iff, String.eqb_neq.
  destruct (String.eqb_spec x v) as [->|Hne]; [tauto|].
  split; [tauto|]. intros [E|H]; [now symmetry in E|tauto].
Qed.

Lemma unique_NoDup (s : list string) : List.NoDup (unique s).
Proof.
  induction s as [|v s IH]; simpl; constructor.
  - rewrite filter_In, String.eqb_refl. intros [_ H]. discriminate.
  - apply List.NoDup_filter. exact IH.
Qed.

Lemma insert_sorted_In (v x : string) (l : list string) :
  In x (insert_sorted v l) <-> x = v \/ In x l.
Proof.
  induction l as [|y l IH]; simpl; [intuition|].
  destruct (String.leb v y); simpl; [intuition|]. rewrite IH. intuition.
Qed.

Lemma sorted_In (l : list string) (x : string) : In x (sorted l) <-> In x l.
Proof.
  induction l as [|v l IH]; simpl; [reflexivity|].
  rewrite insert_sorted_In, IH. intuition.
Qed.

Lemma insert_sorted_NoDup (v : string) (l : list string) :
  ~ In v l -> List.NoDup l -> List.NoDup (insert_sorted v l).
Proof.
  induction l as [|y l IH]; simpl; intros Hv Hl.
  - constructor; [simpl; tauto|constructor].
  - destruct (String.leb v y).
    + constructor; [simpl; tauto|assumption].
    + inversion Hl as [|? ? Hy Hl']; subst. constructor.
      * rewrite insert_sorted_In. intros [->|H]; tauto.
      * apply IH; [tauto|assumption].
Qed.

Lemma sorted_NoDup (l : list string) : List.NoDup l -> List.NoDup (sorted l).
Proof.
  induction l as [|v l IH]; simpl; intros H; [constructor|].
  inversion H as [|? ? Hv Hl]; subst.
  apply insert_sorted_NoDup; [now rewrite sorted_In|now apply IH].
Qed.

Lemma insert_sorted_ascending (v : string) (l : list string) :
  ascending l -> ascending (insert_sorted v l).
Proof.
  induction l as [|y l IH]; simpl; intros H; [exact I|].
  destruct (String.leb v y) eqn:E.
  - simpl. now split.
  - assert (Hyv : String.leb y v = true).
    { destruct (String.leb_total v y) as [H'|H']; congruence. }
    destruct l as [|z l]; simpl in *; [now split|].
    destruct H as [Hyz Hl]. destruct (String.leb v z) eqn:E'.
    + split; [exact Hyv|]. now split.
    + split; [exact Hyz|]. exact (IH Hl).
Qed.

Lemma sorted_ascending (l : list string) : ascending (sorted l).
Proof.
  induction l as [|v l IH]; simpl; [exact I|].
  now apply insert_sorted_ascending.
Qed.

(** ** The sidebar *)

(** X10: the options of a multiselect are exactly the values present in
    that column of the sheet, each once, in ascending order. *)
Theorem options_are_the_values_present
  (field : Row -> string) (employee_df : DataFrame) :
  List.NoDup (options field employee_df)
  /\ ascending (options field employee_df)
  /\ forall v, In v (options field employee_df) <-> In v (col field employee_df).
Proof.
  unfold options. split; [|split].
  - apply sorted_NoDup, unique_NoDup.
  - apply sorted_ascending.
  - intros v. now rewrite sorted_In, unique_In.
Qed.

Lemma pick_all_options (field : Row -> string) (df : DataFrame) (r : Row) :
  In r (rows df) -> pick (field r) (options field df) = true.
Proof.
  intros Hr. unfold pick. apply orb_true_iff. right.
  apply existsb_exists. exists (field r). split; [|apply String.eqb_refl].
  unfold options. rewrite sorted_In, unique_In. unfold col.
  apply in_map_iff. now exists r.
Qed.

(** X11: selecting every option of all four multiselects gives the same
    view of the sheet as selecting nothing. *)
Theorem selecting_every_option_is_selecting_none
  (employee_df : DataFrame) (P : Filters) :
  dept_filter P = options Department employee_df ->
  job_level_filter P = options Job_Level employee_df ->
  gender_filter P = options Gender employee_df ->
  ethnicity_filter P = options Ethnicity employee_df ->
  filtered_df employee_df P
  = filtered_df employee_df
      {| dept_filter := []; job_level_filter := [];
         gender_filter := []; ethnicity_filter := [];
         min_salary := min_salary P; max_salary := max_salary P;
         min_compa := min_compa P; max_compa := max_compa P |}.
Proof.
  intros Hd Hj Hg He. rewrite !filtered_df_eq. f_equal.
  apply filter_ext_in. intros r Hr.
  unfold passes, categorical, in_ranges. simpl. rewrite Hd, Hj, Hg, He.
  now rewrite !pick_all_options by assumption.
Qed.

Lemma selecting_every_option_witness :
  filtered_df sheet_2024 everything
  = filtered_df sheet_2024
      {| dept_filter := []; job_level_filter := [];
         gender_filter := []; ethnicity_filter := [];
         min_salary := 60000; max_salary := 100000;
         min_compa := 0.7; max_compa := 1.1 |}.
Proof.
  apply (selecting_every_option_is_selecting_none sheet_2024 everything);
    reflexivity.
Defined.

Lemma fold_min_int (l : list Z) (v : Z) :
  (fold_left Z.min l v <= v)%Z
  /\ forall x, In x l -> (fold_left Z.min l v <= x)%Z.
Proof.
  revert v. induction l as [|y l IH]; intros v; simpl.
  - split; [lia|tauto].
  - destruct (IH (Z.min v y)) as [H1 H2]. split; [lia|].
    intros x [<-|Hx]; [lia|now apply H2].
Qed.

Lemma fold_max_int (l : list Z) (v : Z) :
  (v <= fold_left Z.max l v)%Z
  /\ forall x, In x l -> (x <= fold_left Z.max l v)%Z.
Proof.
  revert v. induction l as [|y l IH]; intros v; simpl.
  - split; [lia|tauto].
  - destruct (IH (Z.max v y)) as [H1 H2]. split; [lia|].
    intros x [<-|Hx]; [lia|now apply H2].
Qed.

Lemma fold_min_float (l : list float) (v : float) :
  is_nan v = false ->
  (forall x, In x l -> is_nan x = false) ->
  let m := fold_left (fun acc x => if (x <? acc)%float then x else acc) l v in
  (m <=? v)%float = true /\ forall x, In x l -> (m <=? x)%float = true.
Proof.
  revert v. induction l as [|y l IH]; intros v Hv Hl; simpl.
  - split; [now apply float_leb_refl|tauto].
  - assert (Hy : is_nan y = false) by (apply Hl; now left).
    assert (Hl' : forall x, In x l -> is_nan x = false)
      by (intros x Hx; apply Hl; now right).
    destruct (y <? v)%float eqn:E.
    + destruct (IH y Hy Hl') as [H1 H2]. split.
      * eapply float_leb_ltb_trans; eassumption.
      * intros x [<-|Hx]; [exact H1|now apply H2].
    + destruct (IH v Hv Hl') as [H1 H2]. split; [exact H1|].
      intros x [<-|Hx]; [|now apply H2].
      eapply float_leb_trans; [exact H1|]. now apply float_ltb_total.
Qed.

Lemma fold_max_float (l : list float) (v : float) :
  is_nan v = false ->
  (forall x, In x l -> is_nan x = false) ->
  let m := fold_left (fun acc x => if (acc <? x)%float then x else acc) l v in
  (v <=? m)%float = true /\ forall x, In x l -> (x <=? m)%float = true.
Proof.
  revert v. induction l as [|y l IH]; intros v Hv Hl; simpl.
  - split; [now apply float_leb_refl|tauto].
  - assert (Hy : is_nan y = false) by (apply Hl; now left).
    assert (Hl' : forall x, In x l -> is_nan x = false)
      by (intros x Hx; apply Hl; now right).
    destruct (v <? y)%float eqn:E.
    + destruct (IH y Hy Hl') as [H1 H2]. split.
      * eapply float_ltb_leb_trans; eassumption.
      * intros x [<-|Hx]; [exact H1|now apply H2].
    + destruct (IH v Hv Hl') as [H1 H2]. split; [exact H1|].
      intros x [<-|Hx]; [|now apply H2].
      eapply float_leb_trans; [|exact H1]. now apply float_ltb_total.
Qed.

Lemma min_float_le (s : list float) (x : float) :
  In x s -> is_nan x = false -> (min_float s <=? x)%float = true.
Proof.
  intros Hx Hn. unfold min_float.
  assert (Hin : In x (List.filter (fun v => negb (is_nan v)) s))
    by (apply filter_In; now rewrite Hn).
  assert (Hall : forall y, In y (List.filter (fun v => negb (is_nan v)) s) ->
                           is_nan y = false).
  { intros y Hy. apply filter_In in Hy. now apply negb_true_iff. }
  destruct (List.filter (fun v => negb (is_nan v)) s) as [|v l]; [destruct Hin|].
  destruct (fold_min_float l v) as [H1 H2].
  - apply Hall. now left.
  - intros y Hy. apply Hall. now right.
  - destruct Hin as [<-|Hin]; [exact H1|now apply H2].
Qed.

Lemma max_float_ge (s : list float) (x : float) :
  In x s -> is_nan x = false -> (x <=? max_float s)%float = true.
Proof.
  intros Hx Hn. unfold max_float.
  assert (Hin : In x (List.filter (fun v => negb (is_nan v)) s))
    by (apply filter_In; now rewrite Hn).
  assert (Hall : forall y, In y (List.filter (fun v => negb (is_nan v)) s) ->
                           is_nan y = false).
  { intros y Hy. apply filter_In in Hy. now apply negb_true_iff. }
  destruct (List.filter (fun v => negb (is_nan v)) s) as [|v l]; [destruct Hin|].
  destruct (fold_max_float l v) as [H1 H2].
  - apply Hall. now left.
  - intros y Hy. apply Hall. now right.
  - destruct Hin as [<-|Hin]; [exact H1|now apply H2].
Qed.

Lemma min_int_le (s : list Z) (lo x : Z) :
  min_int s = Some lo -> In x s -> (lo <= x)%Z.
Proof.
  destruct s as [|v l]; [discriminate|]. simpl. intros [= <-] Hx.
  destruct (fold_min_int l v) as [H1 H2].
  destruct Hx as [<-|Hx]; [exact H1|now apply H2].
Qed.

Lemma max_int_ge (s : list Z) (hi x : Z) :
  max_int s = Some hi -> In x s -> (x <= hi)%Z.
Proof.
  destruct s as [|v l]; [discriminate|]. simpl. intros [= <-] Hx.
  destruct (fold_max_int l v) as [H1 H2].
  destruct Hx as [<-|Hx]; [exact H1|now apply H2].
Qed.

(** X12: with nothing selected and the two sliders holding the smallest
    and the largest cell of their columns (their full range on a sheet of
    integer salaries), the view is the sheet without the rows whose compa
    ratio is missing: the whole sheet when none is. *)
Theorem full_range_sliders_keep_every_number
  (employee_df : DataFrame) (P : Filters) :
  dept_filter P = [] -> job_level_filter P = [] ->
  gender_filter P = [] -> ethnicity_filter P = [] ->
  min_int (col Base_Salary employee_df) = Some (min_salary P) ->
  max_int (col Base_Salary employee_df) = Some (max_salary P) ->
  min_compa P = min_float (col Compa_Ratio employee_df) ->
  max_compa P = max_float (col Compa_Ratio employee_df) ->
  filtered_df employee_df P
  = {| columns := columns employee_df;
       rows := List.filter (fun r => negb (is_nan (Compa_Ratio r)))
                           (rows employee_df) |}.
Proof.
  intros Hd Hj Hg He Elo Ehi Hclo Hchi. unfold col in *.
  rewrite filtered_df_eq. f_equal.
  apply filter_ext_in. intros r Hr.
  unfold passes, categorical, in_ranges, pick.
  rewrite Hd, Hj, Hg, He, Hclo, Hchi. simpl.
  assert (Hs : In (Base_Salary r) (List.map Base_Salary (rows employee_df)))
    by now apply in_map.
  assert (Hc : In (Compa_Ratio r) (List.map Compa_Ratio (rows employee_df)))
    by now apply in_map.
  rewrite (proj2 (Z.leb_le _ _) (min_int_le _ _ _ Elo Hs)).
  rewrite (proj2 (Z.leb_le _ _) (max_int_ge _ _ _ Ehi Hs)). simpl.
  destruct (is_nan (Compa_Ratio r)) eqn:Hn; simpl.
  - apply andb_false_iff. left. apply not_true_is_false. intros H.
    apply float_leb_numbers in H. destruct H as [_ H]. congruence.
  - now rewrite min_float_le, max_float_ge.
Qed.

Lemma full_range_sliders_witness :
  filtered_df sheet_2024 wide = sheet_2024.
Proof.
  apply (full_range_sliders_keep_every_number sheet_2024 wide); reflexivity.
Defined.

(** ** Groups *)

Lemma group_of_absent_key {A} (key : A -> string) (ks : list string) (x : A) :
  ~ In (key x) ks ->
  list_sum (List.map (fun k => if String.eqb (key x) k then 1 else 0)%nat ks)
  = 0%nat.
Proof.
  induction ks as [|k ks IH]; simpl; intros H; [reflexivity|].
  destruct (String.eqb_spec (key x) k) as [E|_];
    [exfalso; apply H; left; now symmetry|].
  apply IH. tauto.
Qed.

Lemma group_of_present_key {A} (key : A -> string) (ks : list string) (x : A) :
  List.NoDup ks -> In (key x) ks ->
  list_sum (List.map (fun k => if String.eqb (key x) k then 1 else 0)%nat ks)
  = 1%nat.
Proof.
  induction ks as [|k ks IH]; simpl; intros Hn Hin; [destruct Hin|].
  inversion Hn as [|? ? Hk Hn']; subst.
  destruct (String.eqb_spec (key x) k) as [E|Hne].
  - rewrite group_of_absent_key; [reflexivity|congruence].
  - apply IH; [assumption|]. destruct Hin; [congruence|assumption].
Qed.

Lemma list_sum_map_add {K} (f g : K -> nat) (ks : list K) :
  list_sum (List.map (fun k => f k + g k)%nat ks)
  = (list_sum (List.map f ks) + list_sum (List.map g ks))%nat.
Proof.
  induction ks as [|k ks IH]; simpl; [reflexivity|]. rewrite IH. lia.
Qed.

Lemma group_sizes_sum {A} (key : A -> string) (ks : list string) (l : list A) :
  List.NoDup ks ->
  (forall x, In x l -> In (key x) ks) ->
  list_sum
    (List.map (fun k => length (List.filter (fun x => String.eqb (key x) k) l)) ks)
  = length l.
Proof.
  intros Hn. induction l as [|x l IH]; intros Hall.
  - simpl. induction ks as [|k ks IHk]; simpl; [reflexivity|].
    inversion Hn; subst. now apply IHk.
  - transitivity
      (list_sum (List.map (fun k => if String.eqb (key x) k then 1 else 0)%nat ks)
       + list_sum
           (List.map
              (fun k => length (List.filter (fun x => String.eqb (key x) k) l)) ks))%nat.
    + rewrite <- list_sum_map_add. f_equal. apply List.map_ext.
      intros k. simpl. now destruct (String.eqb (key x) k).
    + rewrite group_of_present_key, IH; simpl; try assumption.
      * reflexivity.
      * intros y Hy. apply Hall. now right.
      * apply Hall. now left.
Qed.

Lemma group_rows (key : Row -> string) (df : DataFrame) (k : string) :
  rows (loc df (eq_str (col key df) k))
  = List.filter (fun r => String.eqb (key r) k) (rows df).
Proof.
  unfold loc, eq_str, col. simpl. now rewrite List.map_map, keep_map.
Qed.

(** X13: the gender lines of the insights split the view: each gender of
    the view has exactly one line, every line counts at least one row, and
    the head counts add up to the number of rows of the view. *)
Theorem gender_lines_split_the_view (filtered_df : DataFrame) :
  let labels := List.map (fun line => fst (fst line)) (by_gender filtered_df) in
  let counts := List.map (fun line => snd (fst line)) (by_gender filtered_df) in
  List.NoDup labels
  /\ (forall g, In g labels <-> In g (col Gender filtered_df))
  /\ List.Forall (fun n => 1 <= n)%nat counts
  /\ list_sum counts = len filtered_df.
Proof.
  cbv zeta. unfold by_gender. rewrite !List.map_map. simpl.
  rewrite List.map_id. split; [|split; [|split]].
  - apply unique_NoDup.
  - intros g. apply unique_In.
  - apply List.Forall_forall. intros n Hn. apply in_map_iff in Hn.
    destruct Hn as (g & <- & Hg). apply (proj1 (unique_In _ _)) in Hg.
    unfold col in Hg. apply in_map_iff in Hg. destruct Hg as (r & <- & Hr).
    unfold len. rewrite group_rows.
    assert (Hin : In r (List.filter (fun r' => String.eqb (Gender r') (Gender r))
                                    (rows filtered_df)))
      by (apply filter_In; split; [assumption|apply String.eqb_refl]).
    destruct (List.filter _ (rows filtered_df)); [destruct Hin|simpl; lia].
  - unfold len.
    erewrite List.map_ext; [|intros g; rewrite group_rows; reflexivity].
    apply group_sizes_sum; [apply unique_NoDup|].
    intros r Hr. apply unique_In. unfold col. now apply in_map.
Qed.

(** ** The highest paid department *)

Lemma idxmax_snoc (s : list (string * float)) (kv : string * float) :
  idxmax (s ++ [kv])%list
  = if is_nan (snd kv) then idxmax s
    else match idxmax s with
         | None => Some kv
         | Some b => if (snd b <? snd kv)%float then Some kv else Some b
         end.
Proof.
  unfold idxmax. rewrite fold_left_app. simpl.
  destruct (is_nan (snd kv)); [reflexivity|].
  now destruct (fold_left _ s None).
Qed.

(** [idxmax] returns the first of the largest numbers of the series. *)
Lemma idxmax_first_largest (s : list (string * float)) :
  match idxmax s with
  | None => forall x, In x s -> is_nan (snd x) = true
  | Some kv =>
      is_nan (snd kv) = false
      /\ exists pre post,
           s = (pre ++ kv :: post)%list
           /\ (forall x, In x pre -> is_nan (snd x) = false ->
                          (snd x <? snd kv)%float = true)
           /\ (forall x, In x post -> (snd kv <? snd x)%float = false)
  end.
Proof.
  induction s as [|kv s IH] using rev_ind; [intros x []|].
  rewrite idxmax_snoc. destruct (is_nan (snd kv)) eqn:Hkv.
  - destruct (idxmax s) as [b|].
    + destruct IH as (Hb & pre & post & -> & Hpre & Hpost). split; [exact Hb|].
      exists pre, (post ++ [kv])%list. split; [now rewrite <- app_assoc|].
      split; [exact Hpre|]. intros x Hx. apply in_app_or in Hx.
      destruct Hx as [Hx|[<-|[]]]; [now apply Hpost|].
      apply not_true_is_false. intros H. apply float_ltb_numbers in H.
      destruct H. congruence.
    + intros x Hx. apply in_app_or in Hx.
      destruct Hx as [Hx|[<-|[]]]; [now apply IH|exact Hkv].
  - destruct (idxmax s) as [b|].
    + destruct IH as (Hb & pre & post & -> & Hpre & Hpost).
      destruct (snd b <? snd kv)%float eqn:E.
      * split; [exact Hkv|]. exists (pre ++ b :: post)%list, [].
        split; [reflexivity|]. split; [|intros x []].
        intros x Hx Hn. apply in_app_or in Hx.
        destruct Hx as [Hx|[<-|Hx]].
        -- eapply float_ltb_trans; [now apply Hpre|exact E].
        -- exact E.
        -- eapply float_leb_ltb_lt; [|exact E].
           apply float_ltb_total; [assumption|assumption|now apply Hpost].
      * split; [exact Hb|]. exists pre, (post ++ [kv])%list.
        split; [now rewrite <- app_assoc|]. split; [exact Hpre|].
        intros x Hx. apply in_app_or in Hx.
        destruct Hx as [Hx|[<-|[]]]; [now apply Hpost|exact E].
    + split; [exact Hkv|]. exists s, []. split; [reflexivity|].
      split; [|intros x []]. intros x Hx Hn. rewrite (IH x Hx) in Hn.
      discriminate.
Qed.

(** X14: the department written as the highest paid is a department of
    the view whose mean salary is a number; no department of the chart has
    a larger mean, and among the departments with that mean it is the
    first in ascending order of the names.  No department is written only
    when no mean is a number. *)
Theorem highest_paid_department (filtered_df : DataFrame) :
  match highest_dept filtered_df with
  | Some d =>
      In d (col Department filtered_df)
      /\ exists m pre post,
           dept_avg filtered_df = (pre ++ (d, m) :: post)%list
           /\ is_nan m = false
           /\ (forall x, In x pre -> is_nan (snd x) = false ->
                          (snd x <? m)%float = true)
           /\ (forall x, In x post -> (m <? snd x)%float = false)
  | None =>
      forall x, In x (dept_avg filtered_df) -> is_nan (snd x) = true
  end.
Proof.
  unfold highest_dept, dept_avg.
  pose proof (idxmax_first_largest (groupby_mean_salary Department filtered_df))
    as H.
  destruct (0 <? length (groupby_mean_salary Department filtered_df))%nat eqn:E.
  - destruct (idxmax (groupby_mean_salary Department filtered_df))
      as [[d m]|]; simpl in *; [|exact H].
    destruct H as (Hm & pre & post & Hs & Hpre & Hpost). split.
    + assert (Hin : In (d, m) (groupby_mean_salary Department filtered_df))
        by (rewrite Hs; apply in_or_app; right; now left).
      unfold groupby_mean_salary in Hin. apply in_map_iff in Hin.
      destruct Hin as (k & [= <- _] & Hk).
      now apply (proj1 (sorted_In _ _)), (proj1 (unique_In _ _)) in Hk.
    + exists m, pre, post. now repeat split.
  - apply Nat.ltb_ge in E.
    destruct (groupby_mean_salary Department filtered_df); [intros x []|].
    simpl in E. lia.
Qed.

(** X15: the salary chart has one bar per department of the view, none
    twice, in ascending order of the names. *)
Theorem chart_has_one_bar_per_department (filtered_df : DataFrame) :
  let names := List.map fst (dept_avg filtered_df) in
  List.NoDup names
  /\ ascending names
  /\ forall d, In d names <-> In d (col Department filtered_df).
Proof.
  cbv zeta. unfold dept_avg, groupby_mean_salary.
  rewrite List.map_map. simpl. rewrite List.map_id. split; [|split].
  - apply sorted_NoDup, unique_NoDup.
  - apply sorted_ascending.
  - intros d. now rewrite sorted_In, unique_In.
Qed.

(** ** Tightening the sliders *)

(** X16: with the same selections and both slider ranges inside those of
    a first filter, filtering the first view gives the view of the second
    filter on the sheet, and that view is a subsequence of the first. *)
Theorem tighter_sliders_refine_the_view (T : DataFrame) (P P' : Filters) :
  dept_filter P' = dept_filter P ->
  job_level_filter P' = job_level_filter P ->
  gender_filter P' = gender_filter P ->
  ethnicity_filter P' = ethnicity_filter P ->
  (min_salary P <= min_salary P')%Z ->
  (max_salary P' <= max_salary P)%Z ->
  (min_compa P <=? min_compa P')%float = true ->
  (max_compa P' <=? max_compa P)%float = true ->
  filtered_df (filtered_df T P) P' = filtered_df T P'
  /\ sublist (rows (filtered_df T P')) (rows (filtered_df T P)).
Proof.
  intros Hd Hj Hg He Hlo Hhi Hclo Hchi.
  assert (Himp : forall r, passes P' r = true -> passes P r = true).
  { intros r. unfold passes, categorical, in_ranges.
    rewrite Hd, Hj, Hg, He, !andb_true_iff, !Z.leb_le.
    intros [Hc [[[H1 H2] H3] H4]]. repeat split; try tauto; try lia.
    - eapply float_leb_trans; eassumption.
    - eapply float_leb_trans; eassumption. }
  assert (E : filtered_df (filtered_df T P) P' = filtered_df T P').
  { rewrite !filtered_df_eq. simpl. f_equal. rewrite filter_filter.
    apply filter_ext_eq. intros r.
    destruct (passes P' r) eqn:E'; [|apply andb_false_r].
    now rewrite (Himp r E'). }
  split; [exact E|]. rewrite <- E. rewrite (filtered_df_eq (filtered_df T P)).
  simpl. apply filter_sublist.
Qed.

Lemma tighter_sliders_witness :
  filtered_df (filtered_df sheet_2024 wide) from_60k
  = filtered_df sheet_2024 from_60k
  /\ sublist (rows (filtered_df sheet_2024 from_60k))
             (rows (filtered_df sheet_2024 wide)).
Proof.
  apply (tighter_sliders_refine_the_view sheet_2024 wide from_60k);
    try reflexivity; vm_compute; discriminate.
Defined.
